(** * dropid: prefixed identifiers with a random suffix

    Shallow embedding of [src/index.ts].  The module keeps one mutable
    variable, [globalOptions], and draws randomness through nanoid's
    [customAlphabet]; both are threaded explicitly through a small
    state-and-exception monad.

    Modelling conventions.
    - A JavaScript string is a [string]: a sequence of code units below
      U+0100 (Latin-1).  [toLowerCase] and [trim] are the restrictions of
      the ECMAScript operations to that range.
    - The [number] held by [length] is an integer ([Z]); comparison with
      [1] is integer comparison.
    - Option objects follow the declared interface [DropIdOptions]: each
      key is absent ([None]) or holds a value of its declared type.
    - Arguments that the code guards with [typeof] ([modelName] of
      [dropid], [prefix] of [createPrefixedId]) are dynamic [value]s.
    - nanoid is an external dependency; [customAlphabet] is a parameter of
      the development and its contract an explicit hypothesis. *)

From Stdlib Require Import ZArith Bool Arith List Ascii String Lia.
Import ListNotations.
Local Open Scope string_scope.
Local Open Scope Z_scope.

(** ** JavaScript values *)

Inductive value : Type :=
| VUndefined
| VNull
| VBoolean (b : bool)
| VNumber (n : Z)
| VString (s : string).

Inductive jstype : Type :=
| TyUndefined | TyObject | TyBoolean | TyNumber | TyString.

(** [typeof v]; note [typeof null === 'object']. *)
Definition typeof (v : value) : jstype :=
  match v with
  | VUndefined => TyUndefined
  | VNull => TyObject
  | VBoolean _ => TyBoolean
  | VNumber _ => TyNumber
  | VString _ => TyString
  end.

Definition jstype_eqb (a b : jstype) : bool :=
  match a, b with
  | TyUndefined, TyUndefined | TyObject, TyObject | TyBoolean, TyBoolean
  | TyNumber, TyNumber | TyString, TyString => true
  | _, _ => false
  end.

(** ToBoolean: the values for which [!v] is [false]. *)
Definition truthy (v : value) : bool :=
  match v with
  | VUndefined | VNull => false
  | VBoolean b => b
  | VNumber n => negb (n =? 0)
  | VString s => negb (s =? "")%string
  end.

(** Narrowing of a value to the string it holds. *)
Definition asString (v : value) : option string :=
  match v with
  | VString s => Some s
  | _ => None
  end.

(** ** String primitives *)

Definition isWhiteSpace (c : ascii) : bool :=
  let n := nat_of_ascii c in
  (((9 <=? n) && (n <=? 13)) || (n =? 32) || (n =? 160))%nat.

Definition lowerChar (c : ascii) : ascii :=
  let n := nat_of_ascii c in
  if (((65 <=? n) && (n <=? 90))
      || ((192 <=? n) && (n <=? 222) && negb (n =? 215)))%nat
  then ascii_of_nat (n + 32)
  else c.

Fixpoint toLowerCase (s : string) : string :=
  match s with
  | EmptyString => EmptyString
  | String c r => String (lowerChar c) (toLowerCase r)
  end.

Fixpoint trimStart (s : string) : string :=
  match s with
  | EmptyString => EmptyString
  | String c r => if isWhiteSpace c then trimStart r else s
  end.

Fixpoint trimEnd (s : string) : string :=
  match s with
  | EmptyString => EmptyString
  | String c r =>
      match trimEnd r with
      | EmptyString => if isWhiteSpace c then EmptyString else String c EmptyString
      | r' => String c r'
      end
  end.

Definition trim (s : string) : string := trimEnd (trimStart s).

(** [parts.join(sep)] *)
Definition join (sep : string) (parts : list string) : string :=
  String.concat sep parts.

Fixpoint char_in (c : ascii) (s : string) : bool :=
  match s with
  | EmptyString => false
  | String d r => Ascii.eqb c d || char_in c r
  end.

(** Every character of [s] occurs in [alphabet]. *)
Fixpoint all_in (alphabet s : string) : bool :=
  match s with
  | EmptyString => true
  | String c r => char_in c alphabet && all_in alphabet r
  end.

(** ** Options *)

(** [interface DropIdOptions]: every key optional. *)
Module DropIdOptions.
Record t : Type := mk {
  length : option Z;
  alphabet : option string;
  separator : option string
}.
(** The object literal [{}]. *)
Definition empty : t := mk None None None.
End DropIdOptions.

(** [Required<DropIdOptions>]: every key present. *)
Module RequiredOptions.
Record t : Type := mk {
  length : Z;
  alphabet : string;
  separator : string
}.
End RequiredOptions.

Definition defaultOptions : RequiredOptions.t :=
  {| RequiredOptions.length := 12;
     RequiredOptions.alphabet := "0123456789abcdefghijklmnopqrstuvwxyz";
     RequiredOptions.separator := "_" |}.

(** [{ ...base, ...over }]: keys of [over] win, the others come from [base]. *)
Definition spread (base : RequiredOptions.t) (over : DropIdOptions.t)
  : RequiredOptions.t :=
  {| RequiredOptions.length :=
       match DropIdOptions.length over with
       | Some n => n
       | None => RequiredOptions.length base
       end;
     RequiredOptions.alphabet :=
       match DropIdOptions.alphabet over with
       | Some a => a
       | None => RequiredOptions.alphabet base
       end;
     RequiredOptions.separator :=
       match DropIdOptions.separator over with
       | Some s => s
       | None => RequiredOptions.separator base
       end |}.

(** Spreading an optional argument: [...undefined] contributes no key. *)
Definition spread_opt (base : RequiredOptions.t) (over : option DropIdOptions.t)
  : RequiredOptions.t :=
  match over with
  | Some o => spread base o
  | None => base
  end.

(** ** Errors and results *)

Inductive Error : Type :=
| TypeError (msg : string)
| RangeError (msg : string).

Inductive Result (A : Type) : Type :=
| Ok (a : A)
| Throw (e : Error).
Arguments Ok {A} a.
Arguments Throw {A} e.

(** Contract of the random suffix generator: exactly [size] characters,
    each taken from [alphabet]. *)
Definition suffix_ok (alphabet : string) (size : Z) (s : string) : Prop :=
  Z.of_nat (String.length s) = size /\ all_in alphabet s = true.

(** ** The module *)

Section DropId.

(** State of the random source. *)
Variable rng : Type.

(** nanoid's [customAlphabet(alphabet, size)]; calling the generator it
    returns consumes randomness. *)
Variable customAlphabet : string -> Z -> rng -> string * rng.

(** Module state: the [let globalOptions] binding and the random source. *)
Record World : Type := mkWorld {
  globalOptions : RequiredOptions.t;
  entropy : rng
}.

(** Module initialisation: [globalOptions = { ...defaultOptions }]. *)
Definition initial (g : rng) : World := mkWorld defaultOptions g.

Definition Eff (A : Type) : Type := World -> Result A * World.

Definition ret {A : Type} (a : A) : Eff A := fun w => (Ok a, w).

Definition throw {A : Type} (e : Error) : Eff A := fun w => (Throw e, w).

Definition bind {A B : Type} (m : Eff A) (k : A -> Eff B) : Eff B :=
  fun w =>
    match m w with
    | (Ok a, w') => k a w'
    | (Throw e, w') => (Throw e, w')
    end.

Notation "x <- m ;; k" := (bind m (fun x => k))
  (at level 61, m at next level, right associativity).

Definition readGlobal : Eff RequiredOptions.t :=
  fun w => (Ok (globalOptions w), w).

Definition writeGlobal (o : RequiredOptions.t) : Eff unit :=
  fun w => (Ok tt, mkWorld o (entropy w)).

(** Run a generator built by [customAlphabet]. *)
Definition generate (gen : rng -> string * rng) : Eff string :=
  fun w => let (id, g) := gen (entropy w) in
           (Ok id, mkWorld (globalOptions w) g).

Definition configure (options : DropIdOptions.t) : Eff unit :=
  g <- readGlobal ;;
  writeGlobal (spread g options).

Definition resetConfig : Eff unit :=
  writeGlobal defaultOptions.

Definition getConfig : Eff RequiredOptions.t :=
  g <- readGlobal ;;
  ret g.

(** [dropid(modelName, prefix?, options?)].  The checks come in the order
    of the source.  [alphabet] and [separator] have their declared type
    here, so [!opts.alphabet] tests for the empty string and the [typeof]
    test on the separator never fires.  Past the first guard [modelName] is
    a string; the [None] branch is the method call on a non-string, which
    that guard makes unreachable. *)
Definition dropid (modelName : value) (prefix : option string)
           (options : option DropIdOptions.t) : Eff string :=
  if negb (truthy modelName) || negb (jstype_eqb (typeof modelName) TyString)
  then throw (TypeError "modelName must be a non-empty string")
  else
    g <- readGlobal ;;
    let opts := spread_opt g options in
    if RequiredOptions.length opts <? 1
    then throw (RangeError "length must be at least 1")
    else if negb (truthy (VString (RequiredOptions.alphabet opts)))
            || (String.length (RequiredOptions.alphabet opts) <? 2)%nat
    then throw (TypeError "alphabet must contain at least 2 characters")
    else if negb (jstype_eqb (typeof (VString (RequiredOptions.separator opts)))
                             TyString)
    then throw (TypeError "separator must be a string")
    else
      id <- generate (customAlphabet (RequiredOptions.alphabet opts)
                                     (RequiredOptions.length opts)) ;;
      match asString modelName with
      | None => throw (TypeError "modelName.toLowerCase is not a function")
      | Some name =>
          let normalizedModelName := trim (toLowerCase name) in
          let parts :=
            match prefix with
            | Some p => if truthy (VString p)
                        then [p; normalizedModelName; id]
                        else [normalizedModelName; id]
            | None => [normalizedModelName; id]
            end in
          ret (join (RequiredOptions.separator opts) parts)
      end.

(** [createPrefixedId(prefix, options?)]: the guard, then a closure over
    [prefix] and [options]; past the guard [prefix] is a string. *)
Definition createPrefixedId (prefix : value) (options : option DropIdOptions.t)
  : Eff (value -> Eff string) :=
  if negb (truthy prefix) || negb (jstype_eqb (typeof prefix) TyString)
  then throw (TypeError "prefix must be a non-empty string")
  else ret (fun modelName => dropid modelName (asString prefix) options).

End DropId.

Arguments World rng : clear implicits.
Arguments mkWorld {rng} _ _.
Arguments globalOptions {rng} _.
Arguments entropy {rng} _.
Arguments initial {rng} g.
Arguments Eff rng A : clear implicits.
Arguments ret {rng A} a _.
Arguments throw {rng A} e _.
Arguments bind {rng A B} m k _.
Arguments readGlobal {rng} _.
Arguments writeGlobal {rng} o _.
Arguments generate {rng} gen _.
Arguments configure {rng} options _.
Arguments resetConfig {rng} _.
Arguments getConfig {rng} _.
Arguments dropid {rng} customAlphabet modelName prefix options _.
Arguments createPrefixedId {rng} customAlphabet prefix options _.

(** ** Configuration histories *)

(** The two operations that assign [globalOptions]. *)
Inductive ConfigOp : Type :=
| OpConfigure (options : DropIdOptions.t)
| OpReset.

Definition apply_op {rng : Type} (op : ConfigOp) (w : World rng) : World rng :=
  match op with
  | OpConfigure options => snd (configure options w)
  | OpReset => snd (resetConfig w)
  end.

(** Run a sequence of operations, first operation first. *)
Definition run_ops {rng : Type} (ops : list ConfigOp) (w : World rng) : World rng :=
  fold_left (fun acc op => apply_op op acc) ops w.

(** ** Vocabulary of the specification *)

(** Invariant stated for a Configuration: [length >= 1] and an alphabet of
    at least two characters. *)
Definition config_invariant (c : RequiredOptions.t) : Prop :=
  1 <= RequiredOptions.length c
  /\ (2 <= String.length (RequiredOptions.alphabet c))%nat.

(** A partial configuration whose supplied fields respect the invariant. *)
Definition options_legal (o : DropIdOptions.t) : bool :=
  match DropIdOptions.length o with
  | Some n => 1 <=? n
  | None => true
  end
  &&
  match DropIdOptions.alphabet o with
  | Some a => (2 <=? String.length a)%nat
  | None => true
  end.

Definition op_legal (op : ConfigOp) : bool :=
  match op with
  | OpConfigure o => options_legal o
  | OpReset => true
  end.

(** Normalization in the order the specification words it: trim, then
    lower-case. *)
Definition spec_normalize (s : string) : string := toLowerCase (trim s).

(** The structural pattern
    [[prefix + separator +] name + separator + suffix]; the prefix segment
    is there exactly for a supplied, non-empty prefix. *)
Definition pattern (prefix : option string) (name sep suffix : string) : string :=
  match prefix with
  | Some p =>
      if (p =? "")%string
      then name ++ sep ++ suffix
      else p ++ sep ++ name ++ sep ++ suffix
  | None => name ++ sep ++ suffix
  end.

(** A model name the specification calls invalid: absent, not a string, or
    empty once surrounding whitespace is trimmed. *)
Definition spec_modelName_invalid (v : value) : bool :=
  match v with
  | VString s => (trim s =? "")%string
  | _ => true
  end.

(** Absent, not a string, or the empty string. *)
Definition absent_or_empty (v : value) : bool :=
  match v with
  | VString s => (s =? "")%string
  | _ => true
  end.

(** A key of the optional options argument: its value when the argument
    is given and holds the key, nothing otherwise. *)
Definition supplied {A : Type} (key : DropIdOptions.t -> option A)
           (options : option DropIdOptions.t) : option A :=
  match options with
  | Some o => key o
  | None => None
  end.

(** Layering in the words of the specification: field by field, the value
    supplied by the call if there is one, the process-wide value otherwise. *)
Definition layered (g : RequiredOptions.t) (options : option DropIdOptions.t)
  : RequiredOptions.t :=
  {| RequiredOptions.length :=
       match supplied DropIdOptions.length options with
       | Some n => n
       | None => RequiredOptions.length g
       end;
     RequiredOptions.alphabet :=
       match supplied DropIdOptions.alphabet options with
       | Some a => a
       | None => RequiredOptions.alphabet g
       end;
     RequiredOptions.separator :=
       match supplied DropIdOptions.separator options with
       | Some x => x
       | None => RequiredOptions.separator g
       end |}.

(** ** A deterministic stand-in for the random source

    It walks the alphabet cyclically from a running position; it is used to
    instantiate the development at concrete inputs. *)

Fixpoint walk (alphabet : string) (pos n : nat) : string :=
  match n with
  | O => EmptyString
  | S k =>
      match String.get (pos mod String.length alphabet) alphabet with
      | Some c => String c (walk alphabet (S pos) k)
      | None => walk alphabet (S pos) k
      end
  end.

Definition cyclicAlphabet (alphabet : string) (size : Z) (pos : nat)
  : string * nat :=
  (walk alphabet pos (Z.to_nat size), (pos + Z.to_nat size)%nat).

(** ** Presets *)

(** [export const alphabets]. *)
Module alphabets.
Definition alphanumeric : string := "0123456789abcdefghijklmnopqrstuvwxyz".
Definition base58 : string :=
  "123456789ABCDEFGHJKLMNPQRSTUVWXYZabcdefghijkmnopqrstuvwxyz".
Definition hex : string := "0123456789abcdef".
Definition base64url : string :=
  "0123456789ABCDEFGHIJKLMNOPQRSTUVWXYZabcdefghijklmnopqrstuvwxyz-_".
Definition numeric : string := "0123456789".
End alphabets.

(** [export const lengths]. *)
Module lengths.
Definition short : Z := 8.
Definition medium : Z := 12.
Definition long : Z := 16.
Definition extraLong : Z := 21.
End lengths.

(** The values of the two tables. *)
Definition alphabet_presets : list string :=
  [alphabets.alphanumeric; alphabets.base58; alphabets.hex;
   alphabets.base64url; alphabets.numeric].

Definition length_presets : list Z :=
  [lengths.short; lengths.medium; lengths.long; lengths.extraLong].

(** A string that does not begin with whitespace. *)
Definition clean_start (s : string) : Prop :=
  match s with
  | EmptyString => True
  | String c _ => isWhiteSpace c = false
  end.

(** ** Composing updates *)

(** [{ ...a, ...b }] on two partial option objects. *)
Definition override (a b : DropIdOptions.t) : DropIdOptions.t :=
  {| DropIdOptions.length :=
       match DropIdOptions.length b with
       | Some n => Some n
       | None => DropIdOptions.length a
       end;
     DropIdOptions.alphabet :=
       match DropIdOptions.alphabet b with
       | Some x => Some x
       | None => DropIdOptions.alphabet a
       end;
     DropIdOptions.separator :=
       match DropIdOptions.separator b with
       | Some x => Some x
       | None => DropIdOptions.separator a
       end |}.

(** History of one field, told without the others: a [configure] that
    holds the key sets it, a [configure] that omits it keeps it, a reset
    puts the default back. *)
Definition field_after {A : Type} (key : DropIdOptions.t -> option A)
           (dflt : A) (ops : list ConfigOp) (cur : A) : A :=
  fold_left
    (fun acc op =>
       match op with
       | OpConfigure o => match key o with
                          | Some v => v
                          | None => acc
                          end
       | OpReset => dflt
       end)
    ops cur.


(** * Properties *)

(** ** Strings *)

Lemma lowerChar_whitespace (c : ascii) :
  isWhiteSpace (lowerChar c) = isWhiteSpace c.
Proof.
  destruct c as [[] [] [] [] [] [] [] []]; reflexivity.
Qed.

Lemma toLowerCase_trimStart (s : string) :
  toLowerCase (trimStart s) = trimStart (toLowerCase s).
Proof.
  induction s as [|c r IH]; simpl; [reflexivity|].
  rewrite lowerChar_whitespace.
  destruct (isWhiteSpace c); [exact IH | reflexivity].
Qed.

Lemma toLowerCase_trimEnd (s : string) :
  toLowerCase (trimEnd s) = trimEnd (toLowerCase s).
Proof.
  induction s as [|c r IH]; simpl; [reflexivity|].
  rewrite <- IH, lowerChar_whitespace.
  destruct (trimEnd r) as [|d r']; simpl.
  - destruct (isWhiteSpace c); reflexivity.
  - reflexivity.
Qed.

(** Lower-casing then trimming (the code) is trimming then lower-casing
    (the specification). *)
Lemma normalize_order (s : string) :
  trim (toLowerCase s) = spec_normalize s.
Proof.
  unfold spec_normalize, trim.
  now rewrite toLowerCase_trimEnd, toLowerCase_trimStart.
Qed.

Lemma eqb_empty_false (s : string) :
  s <> "" -> (s =? "")%string = false.
Proof. intros H. now apply String.eqb_neq. Qed.

Lemma long_not_empty (s : string) :
  (2 <= String.length s)%nat -> (s =? "")%string = false.
Proof. destruct s; simpl; [lia | reflexivity]. Qed.

Lemma length_app (a b : string) :
  String.length (a ++ b) = (String.length a + String.length b)%nat.
Proof. induction a as [|c a IH]; simpl; [reflexivity | now rewrite IH]. Qed.

Lemma lowerChar_idempotent (c : ascii) :
  lowerChar (lowerChar c) = lowerChar c.
Proof.
  destruct c as [[] [] [] [] [] [] [] []]; reflexivity.
Qed.

Lemma toLowerCase_idempotent (s : string) :
  toLowerCase (toLowerCase s) = toLowerCase s.
Proof.
  induction s as [|c r IH]; simpl; [reflexivity|].
  now rewrite lowerChar_idempotent, IH.
Qed.

Lemma trimStart_clean (s : string) : clean_start (trimStart s).
Proof.
  induction s as [|c r IH]; simpl; [exact I|].
  destruct (isWhiteSpace c) eqn:E; [exact IH | exact E].
Qed.

Lemma trimStart_of_clean (s : string) : clean_start s -> trimStart s = s.
Proof.
  destruct s as [|c r]; simpl; [reflexivity|]. now intros ->.
Qed.

Lemma trimEnd_clean (s : string) : clean_start s -> clean_start (trimEnd s).
Proof.
  destruct s as [|c r]; simpl; [trivial|]. intros E.
  destruct (trimEnd r); [rewrite E|]; exact E.
Qed.

Lemma trimEnd_idempotent (s : string) : trimEnd (trimEnd s) = trimEnd s.
Proof.
  induction s as [|c r IH]; simpl; [reflexivity|].
  destruct (trimEnd r) as [|d r'] eqn:E.
  - destruct (isWhiteSpace c) eqn:W; simpl; [reflexivity | now rewrite W].
  - simpl. simpl in IH. now rewrite IH.
Qed.

Lemma trim_idempotent (s : string) : trim (trim s) = trim s.
Proof.
  unfold trim.
  rewrite (trimStart_of_clean (trimEnd (trimStart s))).
  - apply trimEnd_idempotent.
  - apply trimEnd_clean, trimStart_clean.
Qed.

Lemma trim_clean (s : string) : clean_start (trim s).
Proof. apply trimEnd_clean, trimStart_clean. Qed.

(** ** The stand-in generator meets the contract *)

Lemma get_char_in (s : string) (i : nat) (c : ascii) :
  String.get i s = Some c -> char_in c s = true.
Proof.
  revert i; induction s as [|d r IH]; intros i; simpl; [discriminate|].
  destruct i as [|i].
  - intros [= ->]. now rewrite Ascii.eqb_refl.
  - intros H. rewrite (IH _ H). apply orb_true_r.
Qed.

Lemma get_in_range (s : string) (i : nat) :
  (i < String.length s)%nat -> exists c, String.get i s = Some c.
Proof.
  revert i; induction s as [|d r IH]; intros i; simpl; [lia|].
  destruct i as [|i]; [eauto | intros H; apply IH; lia].
Qed.

Lemma walk_contract (alphabet : string) (n pos : nat) :
  (0 < String.length alphabet)%nat ->
  String.length (walk alphabet pos n) = n
  /\ all_in alphabet (walk alphabet pos n) = true.
Proof.
  intros Hlen. revert pos.
  induction n as [|k IH]; intros pos; simpl; [split; reflexivity|].
  destruct (get_in_range alphabet (pos mod String.length alphabet)) as [c Hc].
  { apply Nat.mod_upper_bound. lia. }
  rewrite Hc. simpl. destruct (IH (S pos)) as [IH1 IH2].
  rewrite IH1, IH2, (get_char_in _ _ _ Hc). split; reflexivity.
Qed.

Lemma cyclicAlphabet_contract (a : string) (n : Z) (g : nat) :
  (2 <= String.length a)%nat -> 1 <= n ->
  suffix_ok a n (fst (cyclicAlphabet a n g)).
Proof.
  intros Ha Hn. unfold suffix_ok, cyclicAlphabet. simpl.
  destruct (walk_contract a (Z.to_nat n) g) as [H1 H2]; [lia|].
  rewrite H1, H2. split; [lia | reflexivity].
Qed.

(** ** Behaviour of the module *)

Section Properties.

Variable rng : Type.
Variable customAlphabet : string -> Z -> rng -> string * rng.

(** The generator honours its contract on validated input. *)
Hypothesis customAlphabet_contract :
  forall (a : string) (n : Z) (g : rng),
    (2 <= String.length a)%nat -> 1 <= n ->
    suffix_ok a n (fst (customAlphabet a n g)).

(** The model-name guard rejects exactly the values that are not
    non-empty strings, before anything else is looked at. *)
Lemma dropid_rejects (modelName : value) (prefix : option string)
      (options : option DropIdOptions.t) (w : World rng) :
  absent_or_empty modelName = true ->
  dropid customAlphabet modelName prefix options w
  = (Throw (TypeError "modelName must be a non-empty string"), w).
Proof.
  unfold dropid.
  destruct modelName as [| |b|n|s]; simpl; intros H;
    try reflexivity; try (destruct b; reflexivity).
  - destruct (n =? 0); reflexivity.
  - now rewrite H.
Qed.

(** What a call computes once the model name is a non-empty string. *)
Lemma dropid_unfold (name : string) (prefix : option string)
      (options : option DropIdOptions.t) (w : World rng) :
  name <> "" ->
  let opts := spread_opt (globalOptions w) options in
  dropid customAlphabet (VString name) prefix options w =
  if RequiredOptions.length opts <? 1
  then (Throw (RangeError "length must be at least 1"), w)
  else if (RequiredOptions.alphabet opts =? "")%string
          || (String.length (RequiredOptions.alphabet opts) <? 2)%nat
  then (Throw (TypeError "alphabet must contain at least 2 characters"), w)
  else
    let r := customAlphabet (RequiredOptions.alphabet opts)
                            (RequiredOptions.length opts) (entropy w) in
    (Ok (pattern prefix (trim (toLowerCase name))
                 (RequiredOptions.separator opts) (fst r)),
     mkWorld (globalOptions w) (snd r)).
Proof.
  intros Hname opts.
  unfold dropid, bind, readGlobal, throw, ret, generate. simpl.
  rewrite (eqb_empty_false _ Hname). simpl. fold opts.
  destruct (RequiredOptions.length opts <? 1); [reflexivity|].
  rewrite negb_involutive.
  destruct ((RequiredOptions.alphabet opts =? "")%string
            || (String.length (RequiredOptions.alphabet opts) <? 2)%nat);
    [reflexivity|].
  destruct (customAlphabet _ _ _) as [id g]. simpl.
  f_equal. f_equal. unfold pattern.
  destruct prefix as [p|]; [|reflexivity].
  simpl. destruct (p =? "")%string; reflexivity.
Qed.

Lemma spread_opt_layered (g : RequiredOptions.t)
      (options : option DropIdOptions.t) :
  spread_opt g options = layered g options.
Proof.
  destruct options as [o|]; [reflexivity|].
  destruct g; reflexivity.
Qed.

(** A call with a non-empty model name and a legal effective
    configuration returns, and this is what it returns. *)
Lemma dropid_returns (name : string) (prefix : option string)
      (options : option DropIdOptions.t) (w : World rng) :
  name <> "" ->
  config_invariant (spread_opt (globalOptions w) options) ->
  let opts := spread_opt (globalOptions w) options in
  let r := customAlphabet (RequiredOptions.alphabet opts)
                          (RequiredOptions.length opts) (entropy w) in
  dropid customAlphabet (VString name) prefix options w =
  (Ok (pattern prefix (trim (toLowerCase name))
               (RequiredOptions.separator opts) (fst r)),
   mkWorld (globalOptions w) (snd r)).
Proof.
  intros Hname [Hlen Halpha]. cbv zeta.
rewrite (dropid_unfold name prefix options w Hname). cbv zeta.
replace (RequiredOptions.length (spread_opt (globalOptions w) options) <? 1)
  with false by (symmetry; apply Z.ltb_ge; exact Hlen).
rewrite (long_not_empty _ Halpha).
replace (String.length _ <? 2)%nat with false
  by (symmetry; apply Nat.ltb_ge; exact Halpha).
reflexivity.
Qed.

(** C1 -- Format property.  For a model name that passes validation (a
    non-empty string) and an effective configuration that passes
    validation, [dropid] returns
    [[prefix + separator +] normalizedModelName + separator + suffix]:
    the suffix has exactly [length] characters, all of them from
    [alphabet]; the model-name segment is the model name trimmed and
    lower-cased; the prefix segment is present exactly when a non-empty
    prefix was supplied. *)
Theorem dropid_format (name : string) (prefix : option string)
        (options : option DropIdOptions.t) (w : World rng) :
  name <> "" ->
  config_invariant (spread_opt (globalOptions w) options) ->
  let opts := spread_opt (globalOptions w) options in
  exists (suffix : string) (w' : World rng),
    dropid customAlphabet (VString name) prefix options w
    = (Ok (pattern prefix (spec_normalize name)
                   (RequiredOptions.separator opts) suffix), w')
    /\ suffix_ok (RequiredOptions.alphabet opts)
                 (RequiredOptions.length opts) suffix.
Proof.
  intros Hname Hcfg opts.
  pose proof (dropid_returns name prefix options w Hname Hcfg) as H.
  cbv zeta in H. rewrite normalize_order in H.
  eexists. eexists. split; [exact H|].
  destruct Hcfg as [Hlen Halpha].
  now apply customAlphabet_contract.
Qed.

(** A whitespace-only model name passes the guard whatever the generator
    is: the guard looks at the raw string, trimming comes after. *)
Lemma whitespace_only_returns (g : rng) :
  dropid customAlphabet (VString "   ") None None (initial g)
  = (Ok ("_" ++ fst (customAlphabet "0123456789abcdefghijklmnopqrstuvwxyz" 12 g)),
     mkWorld defaultOptions
             (snd (customAlphabet "0123456789abcdefghijklmnopqrstuvwxyz" 12 g))).
Proof.
  rewrite dropid_unfold by discriminate. reflexivity.
Qed.

(** C2 (amended) -- For every [modelName] that is absent ([undefined] or
    [null]), not a string, or the empty string, [dropid] signals the
    invalid-argument error and returns no identifier; the module state is
    left as it was. *)
Theorem dropid_invalid_modelName (modelName : value) (prefix : option string)
        (options : option DropIdOptions.t) (w : World rng) :
  absent_or_empty modelName = true ->
  dropid customAlphabet modelName prefix options w
  = (Throw (TypeError "modelName must be a non-empty string"), w).
Proof. apply dropid_rejects. Qed.

(** C4 -- Configuration layering.  The effective configuration of one
    call is layered field by field: a field present in the call options
    overrides the process-wide field, an absent field falls through to it;
    the call then uses exactly that configuration (separator, alphabet and
    length of the suffix) and leaves the process-wide configuration as it
    was, so the override lasts for that single call only. *)
Theorem configuration_layering (name : string) (prefix : option string)
        (options : option DropIdOptions.t) (w : World rng) :
  name <> "" ->
  config_invariant (layered (globalOptions w) options) ->
  exists (suffix : string) (w' : World rng),
    dropid customAlphabet (VString name) prefix options w
    = (Ok (pattern prefix (spec_normalize name)
                   (RequiredOptions.separator (layered (globalOptions w) options))
                   suffix), w')
    /\ suffix_ok (RequiredOptions.alphabet (layered (globalOptions w) options))
                 (RequiredOptions.length (layered (globalOptions w) options))
                 suffix
    /\ globalOptions w' = globalOptions w.
Proof.
  intros Hname Hcfg. rewrite <- spread_opt_layered in *.
  pose proof (dropid_returns name prefix options w Hname Hcfg) as H.
  cbv zeta in H. rewrite normalize_order in H.
  eexists. eexists. split; [exact H|]. split; [|reflexivity].
  destruct Hcfg as [Hlen Halpha].
  now apply customAlphabet_contract.
Qed.

(** The layering scenario of the specification, for any generator that
    honours its contract: with the global length set to 16, a call with
    [{ length: 8 }] gets an 8-character suffix and the next call, without
    options, a 16-character one. *)
Lemma layering_scenario (g : rng) :
  let w1 := snd (configure (DropIdOptions.mk (Some 16) None None) (initial g)) in
  exists (s8 s16 : string) (w2 w3 : World rng),
    dropid customAlphabet (VString "user") None
           (Some (DropIdOptions.mk (Some 8) None None)) w1
    = (Ok ("user_" ++ s8), w2)
    /\ String.length s8 = 8%nat
    /\ dropid customAlphabet (VString "user") None None w2
       = (Ok ("user_" ++ s16), w3)
    /\ String.length s16 = 16%nat.
Proof.
  intros w1.
  assert (Hn : "user" <> "") by discriminate.
  assert (H8 : config_invariant
                 (spread_opt (globalOptions w1)
                             (Some (DropIdOptions.mk (Some 8) None None))))
    by (unfold config_invariant; simpl; lia).
  pose proof (dropid_returns "user" None _ w1 Hn H8) as E8.
  cbv zeta in E8.
  set (r8 := customAlphabet _ _ (entropy w1)) in E8.
  assert (H16 : config_invariant
                  (spread_opt (globalOptions (mkWorld (globalOptions w1) (snd r8)))
                              None))
    by (unfold config_invariant; simpl; lia).
  pose proof (dropid_returns "user" None None _ Hn H16) as E16.
  cbv zeta in E16.
  set (r16 := customAlphabet _ _ _) in E16.
  exists (fst r8), (fst r16). eexists. eexists.
  split; [exact E8|]. split; [|split; [exact E16|]].
  - destruct (customAlphabet_contract
                "0123456789abcdefghijklmnopqrstuvwxyz" 8 (entropy w1))
      as [L _]; [simpl; lia | lia |].
    unfold r8. simpl. simpl in L. lia.
  - destruct (customAlphabet_contract
                "0123456789abcdefghijklmnopqrstuvwxyz" 16 (snd r8))
      as [L _]; [simpl; lia | lia |].
    unfold r16. simpl. simpl in L. lia.
Qed.

(** C5 -- A length below 1 is out of range whether the caller supplied it
    (a supplied [0] is a present field, whatever the global length is) or
    it comes from the process-wide configuration: the call signals the
    out-of-range error. *)
Theorem dropid_length_out_of_range (name : string) (prefix : option string)
        (options : option DropIdOptions.t) (w : World rng) (n : Z) :
  name <> "" ->
  n < 1 ->
  supplied DropIdOptions.length options = Some n
  \/ (supplied DropIdOptions.length options = None
      /\ RequiredOptions.length (globalOptions w) = n) ->
  dropid customAlphabet (VString name) prefix options w
  = (Throw (RangeError "length must be at least 1"), w).
Proof.
  intros Hname Hn Hsrc.
  rewrite (dropid_unfold name prefix options w Hname). cbv zeta.
  assert (E : RequiredOptions.length (spread_opt (globalOptions w) options) = n).
  { rewrite spread_opt_layered. simpl.
    destruct Hsrc as [-> | [-> ?]]; [reflexivity | assumption]. }
  rewrite E.
  replace (n <? 1) with true by (symmetry; apply Z.ltb_lt; exact Hn).
  reflexivity.
Qed.

(** C6 -- A call to [dropid] never changes the process-wide
    configuration; when it signals an error the whole module state,
    random source included, is as before the call. *)
Theorem dropid_preserves_global (modelName : value) (prefix : option string)
        (options : option DropIdOptions.t) (w : World rng) :
  match dropid customAlphabet modelName prefix options w with
  | (Ok _, w') => globalOptions w' = globalOptions w
  | (Throw _, w') => w' = w
  end.
Proof.
  destruct (absent_or_empty modelName) eqn:E.
  - now rewrite dropid_rejects.
  - destruct modelName as [| |b|n|name]; try discriminate E.
    simpl in E. apply String.eqb_neq in E.
    rewrite (dropid_unfold name prefix options w E). cbv zeta.
    destruct (_ <? 1); [reflexivity|].
    destruct (_ || _); reflexivity.
Qed.

(** C7 -- [configure] merges field by field: a field present in the update
    takes the supplied value, an omitted field keeps its process-wide
    value; the operation returns normally and touches nothing else. *)
Theorem configure_merges (options : DropIdOptions.t) (w : World rng) :
  exists w' : World rng,
    configure options w = (Ok tt, w')
    /\ RequiredOptions.length (globalOptions w')
       = match DropIdOptions.length options with
         | Some n => n
         | None => RequiredOptions.length (globalOptions w)
         end
    /\ RequiredOptions.alphabet (globalOptions w')
       = match DropIdOptions.alphabet options with
         | Some a => a
         | None => RequiredOptions.alphabet (globalOptions w)
         end
    /\ RequiredOptions.separator (globalOptions w')
       = match DropIdOptions.separator options with
         | Some x => x
         | None => RequiredOptions.separator (globalOptions w)
         end
    /\ entropy w' = entropy w.
Proof.
  eexists. split; [reflexivity|]. simpl. repeat split.
Qed.

(** C8 -- [createPrefixedId] signals the invalid-argument error, at
    creation time, exactly when the prefix is absent, not a string, or
    empty; otherwise it returns a function that, on every model name and
    in every module state, gives what [dropid] gives with the captured
    prefix and options: same result or same error, same state after. *)
Theorem createPrefixedId_spec (prefix : value)
        (options : option DropIdOptions.t) (w : World rng) :
  match createPrefixedId customAlphabet prefix options w with
  | (Throw e, w') =>
      absent_or_empty prefix = true
      /\ e = TypeError "prefix must be a non-empty string"
      /\ w' = w
  | (Ok f, w') =>
      absent_or_empty prefix = false
      /\ w' = w
      /\ exists p : string,
           prefix = VString p
           /\ forall (modelName : value) (w1 : World rng),
                f modelName w1
                = dropid customAlphabet modelName (Some p) options w1
  end.
Proof.
  unfold createPrefixedId.
  destruct prefix as [| |b|n|p]; simpl; try (repeat split; reflexivity).
  - destruct b; simpl; repeat split; reflexivity.
  - destruct (n =? 0); simpl; repeat split; reflexivity.
  - destruct (p =? "")%string; simpl; repeat split.
    exists p. split; reflexivity.
Qed.

(** C9 -- The prefix goes into the identifier verbatim: for a non-empty
    prefix the identifier is the prefix itself, neither trimmed nor
    lower-cased, then the separator, then the normalized model name, the
    separator and the suffix. *)
Theorem prefix_verbatim (name p : string) (options : option DropIdOptions.t)
        (w : World rng) :
  name <> "" ->
  p <> "" ->
  config_invariant (spread_opt (globalOptions w) options) ->
  exists (suffix : string) (w' : World rng),
    dropid customAlphabet (VString name) (Some p) options w
    = (Ok (p ++ RequiredOptions.separator (spread_opt (globalOptions w) options)
             ++ spec_normalize name
             ++ RequiredOptions.separator (spread_opt (globalOptions w) options)
             ++ suffix), w').
Proof.
  intros Hname Hp Hcfg.
  pose proof (dropid_returns name (Some p) options w Hname Hcfg) as H.
  cbv zeta in H. rewrite normalize_order in H.
  unfold pattern in H. rewrite (eqb_empty_false _ Hp) in H.
  eexists. eexists. exact H.
Qed.

(** C10 -- The function returned by [createPrefixedId] reads the
    process-wide configuration when it is invoked, not when it was
    created: after a later [configure(update)], an invocation uses, for
    every field absent from the captured options, the field set by
    [update] (and the creation-time value only where [update] omits it). *)
Theorem prefixed_generator_late_binding (p name : string)
        (captured : option DropIdOptions.t) (update : DropIdOptions.t)
        (w0 : World rng) :
  p <> "" ->
  name <> "" ->
  config_invariant (layered (layered (globalOptions w0) (Some update)) captured) ->
  exists (f : value -> Eff rng string) (w1 : World rng),
    createPrefixedId customAlphabet (VString p) captured w0 = (Ok f, w1)
    /\ exists (suffix : string) (w3 : World rng),
         f (VString name) (snd (configure update w1))
         = (Ok (pattern (Some p) (spec_normalize name)
                  (RequiredOptions.separator
                     (layered (layered (globalOptions w0) (Some update)) captured))
                  suffix), w3)
         /\ suffix_ok
              (RequiredOptions.alphabet
                 (layered (layered (globalOptions w0) (Some update)) captured))
              (RequiredOptions.length
                 (layered (layered (globalOptions w0) (Some update)) captured))
              suffix.
Proof.
  intros Hp Hname Hcfg.
  exists (fun modelName => dropid customAlphabet modelName (Some p) captured), w0.
  split.
  - unfold createPrefixedId. simpl. now rewrite (eqb_empty_false _ Hp).
  - rewrite <- !spread_opt_layered in *.
    change (spread_opt (globalOptions w0) (Some update))
      with (globalOptions (snd (configure update w0))) in *.
    pose proof (dropid_returns name (Some p) captured _ Hname Hcfg) as H.
    cbv zeta in H. rewrite normalize_order in H.
    eexists. eexists. split; [exact H|].
    destruct Hcfg as [Hlen Halpha].
    now apply customAlphabet_contract.
Qed.

(** ** Further properties of [dropid] *)

(** X1 -- An effective alphabet of fewer than two characters (the empty
    string included) is refused: with a non-empty model name and a length
    of at least 1 the call signals the alphabet [TypeError] and leaves the
    module state untouched. *)
Theorem dropid_alphabet_too_short (name : string) (prefix : option string)
        (options : option DropIdOptions.t) (w : World rng) :
  name <> "" ->
  1 <= RequiredOptions.length (spread_opt (globalOptions w) options) ->
  (String.length (RequiredOptions.alphabet (spread_opt (globalOptions w) options))
   < 2)%nat ->
  dropid customAlphabet (VString name) prefix options w
  = (Throw (TypeError "alphabet must contain at least 2 characters"), w).
Proof.
  intros Hname Hlen Halpha.
  rewrite (dropid_unfold name prefix options w Hname). cbv zeta.
  replace (_ <? 1) with false by (symmetry; apply Z.ltb_ge; exact Hlen).
  replace (String.length _ <? 2)%nat with true
    by (symmetry; apply Nat.ltb_lt; exact Halpha).
  now rewrite orb_true_r.
Qed.


(** X3 -- An empty prefix is no prefix for [dropid]: the call behaves as
    if the argument had been omitted, where [createPrefixedId] refuses the
    same empty prefix. *)
Theorem empty_prefix_is_no_prefix (modelName : value)
        (options : option DropIdOptions.t) (w : World rng) :
  dropid customAlphabet modelName (Some "") options w
  = dropid customAlphabet modelName None options w
  /\ fst (createPrefixedId customAlphabet (VString "") options w)
     = Throw (TypeError "prefix must be a non-empty string").
Proof.
  split; [|reflexivity].
  destruct (absent_or_empty modelName) eqn:A.
  - now rewrite !dropid_rejects.
  - destruct modelName as [| |b|n|name]; try discriminate A.
    simpl in A. apply String.eqb_neq in A.
    now rewrite !(dropid_unfold name _ options w A).
Qed.

(** X4 -- Only the normalized model name matters: two non-empty model
    names that differ by letter case or surrounding whitespace give the
    same outcome (same identifier or same error, same state after) when
    called in the same state. *)
Theorem dropid_normalization_insensitive (a b : string)
        (prefix : option string) (options : option DropIdOptions.t)
        (w : World rng) :
  a <> "" ->
  b <> "" ->
  trim (toLowerCase a) = trim (toLowerCase b) ->
  dropid customAlphabet (VString a) prefix options w
  = dropid customAlphabet (VString b) prefix options w.
Proof.
  intros Ha Hb E.
  rewrite (dropid_unfold a prefix options w Ha),
          (dropid_unfold b prefix options w Hb).
  cbv zeta. now rewrite E.
Qed.

(** X5 -- The normalization applied to the model name,
    [toLowerCase().trim()], is idempotent, and its result never begins
    with whitespace: a model-name segment read back from an identifier and
    passed again gives the same segment. *)
Theorem normalization_idempotent (s : string) :
  trim (toLowerCase (trim (toLowerCase s))) = trim (toLowerCase s)
  /\ clean_start (trim (toLowerCase s)).
Proof.
  split; [|apply trim_clean].
  rewrite (normalize_order (trim (toLowerCase s))). unfold spec_normalize.
  rewrite trim_idempotent.
  rewrite (normalize_order s). unfold spec_normalize.
  apply toLowerCase_idempotent.
Qed.

(** X6 -- A non-empty model name made of whitespace only is accepted: the
    call returns an identifier whose model-name segment is empty. *)
Theorem dropid_blank_modelName (name : string) (prefix : option string)
        (options : option DropIdOptions.t) (w : World rng) :
  name <> "" ->
  trim name = "" ->
  config_invariant (spread_opt (globalOptions w) options) ->
  exists (w' : World rng),
    dropid customAlphabet (VString name) prefix options w
    = (Ok (pattern prefix ""
             (RequiredOptions.separator (spread_opt (globalOptions w) options))
             (fst (customAlphabet
                     (RequiredOptions.alphabet
                        (spread_opt (globalOptions w) options))
                     (RequiredOptions.length
                        (spread_opt (globalOptions w) options))
                     (entropy w)))), w').
Proof.
  intros Hname Hblank Hcfg.
  pose proof (dropid_returns name prefix options w Hname Hcfg) as H.
  cbv zeta in H. rewrite normalize_order in H.
  unfold spec_normalize in H. rewrite Hblank in H. simpl in H.
  eexists. exact H.
Qed.

(** X7 -- An empty separator is accepted: the segments are then
    concatenated with nothing in between. *)
Theorem dropid_empty_separator (name : string) (prefix : option string)
        (options : option DropIdOptions.t) (w : World rng) :
  name <> "" ->
  config_invariant (spread_opt (globalOptions w) options) ->
  RequiredOptions.separator (spread_opt (globalOptions w) options) = "" ->
  exists (suffix : string) (w' : World rng),
    dropid customAlphabet (VString name) prefix options w
    = (Ok (match prefix with Some p => p | None => "" end
           ++ trim (toLowerCase name) ++ suffix), w')
    /\ suffix = fst (customAlphabet
                       (RequiredOptions.alphabet
                          (spread_opt (globalOptions w) options))
                       (RequiredOptions.length
                          (spread_opt (globalOptions w) options))
                       (entropy w)).
Proof.
  intros Hname Hcfg Hsep.
  pose proof (dropid_returns name prefix options w Hname Hcfg) as H.
  cbv zeta in H. rewrite Hsep in H.
  eexists. eexists. split; [|reflexivity].
  rewrite H. f_equal. f_equal. unfold pattern.
  destruct prefix as [p|]; [|reflexivity].
  destruct (p =? "")%string eqn:E; [|reflexivity].
  apply String.eqb_eq in E. now subst p.
Qed.

(** X8 -- Length of an identifier: the suffix length, one separator and
    the normalized model name, plus the prefix and a second separator when
    a non-empty prefix is given. *)
Theorem identifier_length (name : string) (prefix : option string)
        (options : option DropIdOptions.t) (w : World rng) :
  name <> "" ->
  config_invariant (spread_opt (globalOptions w) options) ->
  exists (id : string) (w' : World rng),
    dropid customAlphabet (VString name) prefix options w = (Ok id, w')
    /\ Z.of_nat (String.length id)
       = match prefix with
         | Some p =>
             if (p =? "")%string then 0
             else Z.of_nat (String.length p)
                  + Z.of_nat (String.length
                                (RequiredOptions.separator
                                   (spread_opt (globalOptions w) options)))
         | None => 0
         end
         + Z.of_nat (String.length (trim (toLowerCase name)))
         + Z.of_nat (String.length
                       (RequiredOptions.separator
                          (spread_opt (globalOptions w) options)))
         + RequiredOptions.length (spread_opt (globalOptions w) options).
Proof.
  intros Hname Hcfg.
  pose proof (dropid_returns name prefix options w Hname Hcfg) as H.
  cbv zeta in H.
  eexists. eexists. split; [exact H|].
  destruct Hcfg as [Hlen Halpha].
  destruct (customAlphabet_contract _ _ (entropy w) Halpha Hlen) as [L _].
  unfold pattern.
  destruct prefix as [p|]; [destruct (p =? "")%string|];
    rewrite !length_app; lia.
Qed.

(** ** Configuration operations *)

Lemma run_ops_entropy (ops : list ConfigOp) (w : World rng) :
  entropy (run_ops ops w) = entropy w.
Proof.
  revert w. induction ops as [|op ops IH]; intros w; [reflexivity|].
  change (run_ops (op :: ops) w) with (run_ops ops (apply_op op w)).
  rewrite IH. destruct op; reflexivity.
Qed.

(** X9 -- Two updates in a row are one update: [configure(a)] followed by
    [configure(b)] leaves the state that [configure({ ...a, ...b })]
    leaves; in particular repeating an update changes nothing more. *)
Theorem configure_compose (a b : DropIdOptions.t) (w : World rng) :
  configure b (snd (configure a w)) = configure (override a b) w
  /\ configure a (snd (configure a w)) = configure a w.
Proof.
  unfold configure, bind, readGlobal, writeGlobal, spread, override. simpl.
  split; f_equal; f_equal; f_equal;
    try destruct (DropIdOptions.length b);
    try destruct (DropIdOptions.alphabet b);
    try destruct (DropIdOptions.separator b);
    try destruct (DropIdOptions.length a);
    try destruct (DropIdOptions.alphabet a);
    try destruct (DropIdOptions.separator a);
    reflexivity.
Qed.

(** X10 -- [configure({})] is a no-op: it returns normally and the module
    state is exactly as before. *)
Theorem configure_empty (w : World rng) :
  configure DropIdOptions.empty w = (Ok tt, w).
Proof.
  destruct w as [[n a x] g]. reflexivity.
Qed.

(** X11 -- The three fields of the process-wide configuration evolve
    independently: after any sequence of [configure] and [resetConfig],
    each field is what its own history makes it (last value supplied for
    that key since the last reset, else the default after a reset, else
    what it was), whatever was done to the other keys; the random source
    is never touched. *)
Theorem fields_independent (ops : list ConfigOp) (w : World rng) :
  RequiredOptions.length (globalOptions (run_ops ops w))
  = field_after DropIdOptions.length 12 ops
                (RequiredOptions.length (globalOptions w))
  /\ RequiredOptions.alphabet (globalOptions (run_ops ops w))
     = field_after DropIdOptions.alphabet
                   "0123456789abcdefghijklmnopqrstuvwxyz" ops
                   (RequiredOptions.alphabet (globalOptions w))
  /\ RequiredOptions.separator (globalOptions (run_ops ops w))
     = field_after DropIdOptions.separator "_" ops
                   (RequiredOptions.separator (globalOptions w))
  /\ entropy (run_ops ops w) = entropy w.
Proof.
  split; [|split; [|split; [|apply run_ops_entropy]]];
    revert w; induction ops as [|op ops IH]; intros w;
    try reflexivity;
    change (run_ops (op :: ops) w) with (run_ops ops (apply_op op w));
    rewrite IH; destruct op as [o|]; reflexivity.
Qed.

(** X12 -- After [resetConfig], whatever was configured before, reading
    the configuration gives the defaults: length 12, the 36-character
    lower-case alphanumeric alphabet, separator ["_"]; neither operation
    fails and reading changes nothing. *)
Theorem reset_restores_defaults (ops : list ConfigOp) (w : World rng) :
  resetConfig (run_ops ops w) = (Ok tt, initial (entropy w))
  /\ getConfig (snd (resetConfig (run_ops ops w)))
     = (Ok defaultOptions, initial (entropy w)).
Proof.
  unfold resetConfig, getConfig, bind, readGlobal, writeGlobal, ret, initial.
  simpl. rewrite run_ops_entropy. split; reflexivity.
Qed.

(** X13 -- After [resetConfig], whatever was configured before, a call
    without options on a non-empty model name returns an identifier built
    with the defaults: separator ["_"] and a 12-character suffix over the
    default alphabet. *)
Theorem reset_then_dropid (ops : list ConfigOp) (w : World rng)
        (name : string) (prefix : option string) :
  name <> "" ->
  exists (suffix : string) (w' : World rng),
    dropid customAlphabet (VString name) prefix None
           (snd (resetConfig (run_ops ops w)))
    = (Ok (pattern prefix (trim (toLowerCase name)) "_" suffix), w')
    /\ suffix_ok "0123456789abcdefghijklmnopqrstuvwxyz" 12 suffix.
Proof.
  intros Hname.
  assert (Hcfg : config_invariant
                   (spread_opt
                      (globalOptions (snd (resetConfig (run_ops ops w)))) None))
    by (unfold config_invariant; simpl; lia).
  pose proof (dropid_returns name prefix None _ Hname Hcfg) as H.
  cbv zeta in H.
  eexists. eexists. split; [exact H|].
  apply customAlphabet_contract; simpl; lia.
Qed.

(** X14 -- [configure] does not validate: an update whose length is below
    1 is stored without complaint, and from then on every call that does
    not supply its own length signals the out-of-range error. *)
Theorem configure_defers_validation (update : DropIdOptions.t) (n : Z)
        (w : World rng) (name : string) (prefix : option string)
        (options : option DropIdOptions.t) :
  DropIdOptions.length update = Some n ->
  n < 1 ->
  name <> "" ->
  supplied DropIdOptions.length options = None ->
  fst (configure update w) = Ok tt
  /\ dropid customAlphabet (VString name) prefix options (snd (configure update w))
     = (Throw (RangeError "length must be at least 1"), snd (configure update w)).
Proof.
  intros Hu Hn Hname Hopt. split; [reflexivity|].
  rewrite (dropid_unfold name prefix options _ Hname). cbv zeta.
  assert (E : RequiredOptions.length
                (spread_opt (globalOptions (snd (configure update w))) options)
              = n).
  { rewrite spread_opt_layered. simpl. rewrite Hopt, Hu. reflexivity. }
  rewrite E.
  replace (n <? 1) with true by (symmetry; apply Z.ltb_lt; exact Hn).
  reflexivity.
Qed.

(** X15 -- Every preset alphabet combined with every preset length is a
    legal call configuration: on a non-empty model name the call returns,
    with a suffix of the preset length over the preset alphabet. *)
Theorem presets_accepted (a : string) (n : Z) (name : string)
        (prefix : option string) (w : World rng) :
  In a alphabet_presets ->
  In n length_presets ->
  name <> "" ->
  exists (suffix : string) (w' : World rng),
    dropid customAlphabet (VString name) prefix
           (Some (DropIdOptions.mk (Some n) (Some a) None)) w
    = (Ok (pattern prefix (trim (toLowerCase name))
             (RequiredOptions.separator (globalOptions w)) suffix), w')
    /\ suffix_ok a n suffix.
Proof.
  intros Ha Hn Hname.
  assert (La : (2 <= String.length a)%nat).
  { assert (F : forallb (fun x => (2 <=? String.length x)%nat) alphabet_presets
                = true) by reflexivity.
    rewrite forallb_forall in F. apply Nat.leb_le. now apply F. }
  assert (Ln : 1 <= n).
  { assert (F : forallb (fun x => 1 <=? x) length_presets = true)
      by reflexivity.
    rewrite forallb_forall in F. apply Z.leb_le. now apply F. }
  assert (Hcfg : config_invariant
                   (spread_opt (globalOptions w)
                      (Some (DropIdOptions.mk (Some n) (Some a) None))))
    by (split; assumption).
  pose proof (dropid_returns name prefix _ w Hname Hcfg) as H.
  cbv zeta in H.
  eexists. eexists. split; [exact H|].
  now apply customAlphabet_contract.
Qed.

(** X16 -- [createPrefixedId] checks the prefix only: options with a
    length below 1 are captured without complaint, and it is each
    invocation of the returned function that signals the out-of-range
    error (on a non-empty model name, in any state). *)
Theorem createPrefixedId_defers_options (p : string)
        (o : DropIdOptions.t) (n : Z) (w : World rng) :
  p <> "" ->
  DropIdOptions.length o = Some n ->
  n < 1 ->
  exists f : value -> Eff rng string,
    createPrefixedId customAlphabet (VString p) (Some o) w = (Ok f, w)
    /\ forall (name : string) (w1 : World rng),
         name <> "" ->
         f (VString name) w1
         = (Throw (RangeError "length must be at least 1"), w1).
Proof.
  intros Hp Ho Hn.
  exists (fun modelName => dropid customAlphabet modelName (Some p) (Some o)).
  split.
  - unfold createPrefixedId. simpl. now rewrite (eqb_empty_false _ Hp).
  - intros name w1 Hname.
    rewrite (dropid_unfold name (Some p) (Some o) w1 Hname). cbv zeta.
    simpl. rewrite Ho.
    replace (n <? 1) with true by (symmetry; apply Z.ltb_lt; exact Hn).
    reflexivity.
Qed.

(** ** Reachable process-wide configurations *)

Lemma apply_op_invariant (op : ConfigOp) (w : World rng) :
  op_legal op = true ->
  config_invariant (globalOptions w) ->
  config_invariant (globalOptions (apply_op op w)).
Proof.
  destruct op as [o|]; simpl.
  - unfold options_legal, config_invariant. simpl.
    intros H [Hlen Halpha]. apply andb_prop in H. destruct H as [H1 H2].
    split.
    + destruct (DropIdOptions.length o) as [n|]; [|exact Hlen].
      now apply Z.leb_le.
    + destruct (DropIdOptions.alphabet o) as [a|]; [|exact Halpha].
      now apply Nat.leb_le.
  - intros _ _. unfold config_invariant. simpl. lia.
Qed.

Lemma run_ops_invariant (ops : list ConfigOp) (w : World rng) :
  forallb op_legal ops = true ->
  config_invariant (globalOptions w) ->
  config_invariant (globalOptions (run_ops ops w)).
Proof.
  revert w. induction ops as [|op ops IH]; intros w; simpl.
  - intros _ H. exact H.
  - intros H Hw. apply andb_prop in H. destruct H as [Hop Hops].
    apply IH; [exact Hops|]. now apply apply_op_invariant.
Qed.

(** C3 (amended) -- Starting from the Default Configuration, every
    sequence of [configure] and [resetConfig] operations in which each
    [configure] supplies only legal fields (a length, when present, of at
    least 1; an alphabet, when present, of at least 2 characters) leaves a
    process-wide configuration with [length >= 1] and an alphabet of at
    least 2 characters. *)
Theorem legal_history_invariant (ops : list ConfigOp) (g : rng) :
  forallb op_legal ops = true ->
  config_invariant (globalOptions (run_ops ops (initial g))).
Proof.
  intros H. apply run_ops_invariant; [exact H|].
  unfold config_invariant. simpl. lia.
Qed.

End Properties.

(** ** Instances at concrete inputs *)

(** The sample input used below: model name ["User"], prefix ["acme"], no
    call options, freshly initialised module. *)
Lemma dropid_format_witness :
  "User" <> ""
  /\ config_invariant (spread_opt (globalOptions (initial 0%nat)) None)
  /\ exists (suffix : string) (w' : World nat),
       dropid cyclicAlphabet (VString "User") (Some "acme") None (initial 0%nat)
       = (Ok (pattern (Some "acme") (spec_normalize "User") "_" suffix), w')
       /\ suffix_ok "0123456789abcdefghijklmnopqrstuvwxyz" 12 suffix.
Proof.
  split; [discriminate|].
  split; [unfold config_invariant; simpl; lia|].
  apply (dropid_format nat cyclicAlphabet cyclicAlphabet_contract
                       "User" (Some "acme") None (initial 0%nat)).
  - discriminate.
  - unfold config_invariant; simpl; lia.
Defined.


(** C2 -- as stated, the claim fails: a model name made of whitespace only
    is invalid for the specification, yet the call returns an identifier
    (with an empty model-name segment). *)
Lemma dropid_accepts_whitespace_only :
  spec_modelName_invalid (VString "   ") = true
  /\ dropid cyclicAlphabet (VString "   ") None None (initial 0%nat)
     = (Ok "_0123456789ab", mkWorld defaultOptions 12%nat).
Proof. split; reflexivity. Qed.


Lemma dropid_invalid_modelName_witness :
  absent_or_empty (VNumber 123) = true
  /\ dropid cyclicAlphabet (VNumber 123) None None (initial 0%nat)
     = (Throw (TypeError "modelName must be a non-empty string"),
        initial 0%nat).
Proof.
  split; [reflexivity|].
  apply (dropid_invalid_modelName nat cyclicAlphabet (VNumber 123) None None
                                  (initial 0%nat)).
  reflexivity.
Defined.


(** C3 -- as stated, the claim fails: [configure({ length: 0 })] returns
    normally and leaves a process-wide configuration whose length is 0. *)
Lemma configure_breaks_invariant :
  fst (configure (DropIdOptions.mk (Some 0) None None) (initial tt)) = Ok tt
  /\ ~ config_invariant
         (globalOptions
            (run_ops [OpConfigure (DropIdOptions.mk (Some 0) None None)]
                     (initial tt))).
Proof.
  split; [reflexivity|].
  unfold config_invariant. simpl. lia.
Qed.

(** A legal history: lengthen, switch to hexadecimal, reset, shorten. *)
Lemma legal_history_invariant_witness :
  forallb op_legal
          [OpConfigure (DropIdOptions.mk (Some 16) None None);
           OpConfigure (DropIdOptions.mk None (Some "0123456789abcdef") (Some "-"));
           OpReset;
           OpConfigure (DropIdOptions.mk (Some 8) None None)] = true
  /\ config_invariant
       (globalOptions
          (run_ops
             [OpConfigure (DropIdOptions.mk (Some 16) None None);
              OpConfigure (DropIdOptions.mk None (Some "0123456789abcdef") (Some "-"));
              OpReset;
              OpConfigure (DropIdOptions.mk (Some 8) None None)]
             (initial tt))).
Proof.
  split; [reflexivity|].
  apply (legal_history_invariant unit
           [OpConfigure (DropIdOptions.mk (Some 16) None None);
            OpConfigure (DropIdOptions.mk None (Some "0123456789abcdef") (Some "-"));
            OpReset;
            OpConfigure (DropIdOptions.mk (Some 8) None None)] tt).
  reflexivity.
Defined.

(** The layering scenario on the stand-in generator: global length 16,
    call options [{ length: 8 }]. *)
Lemma configuration_layering_witness :
  "user" <> ""
  /\ config_invariant
       (layered (globalOptions
                   (snd (configure (DropIdOptions.mk (Some 16) None None)
                                   (initial 0%nat))))
                (Some (DropIdOptions.mk (Some 8) None None)))
  /\ exists (suffix : string) (w' : World nat),
       dropid cyclicAlphabet (VString "user") None
              (Some (DropIdOptions.mk (Some 8) None None))
              (snd (configure (DropIdOptions.mk (Some 16) None None)
                              (initial 0%nat)))
       = (Ok (pattern None (spec_normalize "user") "_" suffix), w')
       /\ suffix_ok "0123456789abcdefghijklmnopqrstuvwxyz" 8 suffix
       /\ RequiredOptions.length (globalOptions w') = 16.
Proof.
  split; [discriminate|].
  split; [unfold config_invariant; simpl; lia|].
  destruct (configuration_layering nat cyclicAlphabet cyclicAlphabet_contract
              "user" None (Some (DropIdOptions.mk (Some 8) None None))
              (snd (configure (DropIdOptions.mk (Some 16) None None)
                              (initial 0%nat))))
    as (suffix & w' & E & Hs & Hg).
  - discriminate.
  - unfold config_invariant; simpl; lia.
  - exists suffix, w'. split; [exact E|]. split; [exact Hs|].
    rewrite Hg. reflexivity.
Defined.

(** [dropid('user', undefined, { length: 0 })] under the default global
    length 12. *)
Lemma dropid_length_out_of_range_witness :
  "user" <> ""
  /\ 0 < 1
  /\ (supplied DropIdOptions.length (Some (DropIdOptions.mk (Some 0) None None))
      = Some 0
      \/ (supplied DropIdOptions.length (Some (DropIdOptions.mk (Some 0) None None))
          = None
          /\ RequiredOptions.length (globalOptions (initial 0%nat)) = 0))
  /\ dropid cyclicAlphabet (VString "user") None
            (Some (DropIdOptions.mk (Some 0) None None)) (initial 0%nat)
     = (Throw (RangeError "length must be at least 1"), initial 0%nat).
Proof.
  split; [discriminate|].
  split; [lia|].
  split; [left; reflexivity|].
  apply (dropid_length_out_of_range nat cyclicAlphabet "user" None
           (Some (DropIdOptions.mk (Some 0) None None)) (initial 0%nat) 0).
  - discriminate.
  - lia.
  - left; reflexivity.
Defined.

(** [dropid('user', 'ACME ')] begins with ['ACME _']. *)
Lemma prefix_verbatim_witness :
  "user" <> ""
  /\ "ACME " <> ""
  /\ config_invariant (spread_opt (globalOptions (initial 0%nat)) None)
  /\ exists (suffix : string) (w' : World nat),
       dropid cyclicAlphabet (VString "user") (Some "ACME ") None (initial 0%nat)
       = (Ok ("ACME " ++ "_" ++ spec_normalize "user" ++ "_" ++ suffix), w').
Proof.
  split; [discriminate|].
  split; [discriminate|].
  split; [unfold config_invariant; simpl; lia|].
  apply (prefix_verbatim nat cyclicAlphabet "user" "ACME " None (initial 0%nat)).
  - discriminate.
  - discriminate.
  - unfold config_invariant; simpl; lia.
Defined.

(** A generator created with no options, then [configure({ length: 16 })]:
    the next invocation produces a 16-character suffix. *)
Lemma prefixed_generator_late_binding_witness :
  "acme" <> ""
  /\ "user" <> ""
  /\ config_invariant
       (layered (layered (globalOptions (initial 0%nat))
                         (Some (DropIdOptions.mk (Some 16) None None)))
                None)
  /\ exists (f : value -> Eff nat string) (w1 : World nat),
       createPrefixedId cyclicAlphabet (VString "acme") None (initial 0%nat)
       = (Ok f, w1)
       /\ exists (suffix : string) (w3 : World nat),
            f (VString "user")
              (snd (configure (DropIdOptions.mk (Some 16) None None) w1))
            = (Ok (pattern (Some "acme") (spec_normalize "user") "_" suffix), w3)
            /\ suffix_ok "0123456789abcdefghijklmnopqrstuvwxyz" 16 suffix.
Proof.
  split; [discriminate|].
  split; [discriminate|].
  split; [unfold config_invariant; simpl; lia|].
  apply (prefixed_generator_late_binding nat cyclicAlphabet
           cyclicAlphabet_contract "acme" "user" None
           (DropIdOptions.mk (Some 16) None None) (initial 0%nat)).
  - discriminate.
  - discriminate.
  - unfold config_invariant; simpl; lia.
Defined.

(** [dropid('user', undefined, { alphabet: 'a' })] *)
Lemma dropid_alphabet_too_short_witness :
  "user" <> ""
  /\ 1 <= 12
  /\ (String.length "a" < 2)%nat
  /\ dropid cyclicAlphabet (VString "user") None
            (Some (DropIdOptions.mk None (Some "a") None)) (initial 0%nat)
     = (Throw (TypeError "alphabet must contain at least 2 characters"),
        initial 0%nat).
Proof.
  split; [discriminate|]. split; [lia|]. split; [simpl; lia|].
  apply (dropid_alphabet_too_short nat cyclicAlphabet "user" None
           (Some (DropIdOptions.mk None (Some "a") None)) (initial 0%nat)).
  - discriminate.
  - simpl; lia.
  - simpl; lia.
Defined.

(** [dropid('  User  ')] and [dropid('user')] in the same state. *)
Lemma dropid_normalization_insensitive_witness :
  "  User  " <> ""
  /\ "user" <> ""
  /\ trim (toLowerCase "  User  ") = trim (toLowerCase "user")
  /\ dropid cyclicAlphabet (VString "  User  ") None None (initial 0%nat)
     = dropid cyclicAlphabet (VString "user") None None (initial 0%nat).
Proof.
  split; [discriminate|]. split; [discriminate|]. split; [reflexivity|].
  apply (dropid_normalization_insensitive nat cyclicAlphabet
           "  User  " "user" None None (initial 0%nat)).
  - discriminate.
  - discriminate.
  - reflexivity.
Defined.

(** A model name of three spaces. *)
Lemma dropid_blank_modelName_witness :
  "   " <> ""
  /\ trim "   " = ""
  /\ config_invariant (spread_opt (globalOptions (initial 0%nat)) None)
  /\ exists w' : World nat,
       dropid cyclicAlphabet (VString "   ") None None (initial 0%nat)
       = (Ok (pattern None "" "_"
                (fst (cyclicAlphabet "0123456789abcdefghijklmnopqrstuvwxyz"
                                     12 0%nat))), w').
Proof.
  split; [discriminate|]. split; [reflexivity|].
  split; [unfold config_invariant; simpl; lia|].
  apply (dropid_blank_modelName nat cyclicAlphabet "   " None None
           (initial 0%nat)).
  - discriminate.
  - reflexivity.
  - unfold config_invariant; simpl; lia.
Defined.

(** [dropid('user', 'acme', { separator: '' })] *)
Lemma dropid_empty_separator_witness :
  "user" <> ""
  /\ config_invariant
       (spread_opt (globalOptions (initial 0%nat))
                   (Some (DropIdOptions.mk None None (Some ""))))
  /\ RequiredOptions.separator
       (spread_opt (globalOptions (initial 0%nat))
                   (Some (DropIdOptions.mk None None (Some "")))) = ""
  /\ exists (suffix : string) (w' : World nat),
       dropid cyclicAlphabet (VString "user") (Some "acme")
              (Some (DropIdOptions.mk None None (Some ""))) (initial 0%nat)
       = (Ok ("acme" ++ trim (toLowerCase "user") ++ suffix), w')
       /\ suffix
          = fst (cyclicAlphabet "0123456789abcdefghijklmnopqrstuvwxyz" 12 0%nat).
Proof.
  split; [discriminate|].
  split; [unfold config_invariant; simpl; lia|].
  split; [reflexivity|].
  apply (dropid_empty_separator nat cyclicAlphabet "user" (Some "acme")
           (Some (DropIdOptions.mk None None (Some ""))) (initial 0%nat)).
  - discriminate.
  - unfold config_invariant; simpl; lia.
  - reflexivity.
Defined.

(** [dropid('user', 'acme')] with the defaults has 22 characters. *)
Lemma identifier_length_witness :
  "user" <> ""
  /\ config_invariant (spread_opt (globalOptions (initial 0%nat)) None)
  /\ exists (id : string) (w' : World nat),
       dropid cyclicAlphabet (VString "user") (Some "acme") None (initial 0%nat)
       = (Ok id, w')
       /\ Z.of_nat (String.length id) = 22.
Proof.
  split; [discriminate|].
  split; [unfold config_invariant; simpl; lia|].
  apply (identifier_length nat cyclicAlphabet cyclicAlphabet_contract
           "user" (Some "acme") None (initial 0%nat)).
  - discriminate.
  - unfold config_invariant; simpl; lia.
Defined.

(** [configure({ length: 16, separator: '-' }); resetConfig(); dropid('user')] *)
Lemma reset_then_dropid_witness :
  "user" <> ""
  /\ exists (suffix : string) (w' : World nat),
       dropid cyclicAlphabet (VString "user") None None
              (snd (resetConfig
                      (run_ops
                         [OpConfigure (DropIdOptions.mk (Some 16) None (Some "-"))]
                         (initial 0%nat))))
       = (Ok (pattern None (trim (toLowerCase "user")) "_" suffix), w')
       /\ suffix_ok "0123456789abcdefghijklmnopqrstuvwxyz" 12 suffix.
Proof.
  split; [discriminate|].
  apply (reset_then_dropid nat cyclicAlphabet cyclicAlphabet_contract
           [OpConfigure (DropIdOptions.mk (Some 16) None (Some "-"))]
           (initial 0%nat) "user" None).
  discriminate.
Defined.

(** [configure({ length: 0 }); dropid('user')] *)
Lemma configure_defers_validation_witness :
  DropIdOptions.length (DropIdOptions.mk (Some 0) None None) = Some 0
  /\ 0 < 1
  /\ "user" <> ""
  /\ supplied DropIdOptions.length None = None
  /\ fst (configure (DropIdOptions.mk (Some 0) None None) (initial 0%nat))
     = Ok tt
  /\ dropid cyclicAlphabet (VString "user") None None
            (snd (configure (DropIdOptions.mk (Some 0) None None)
                            (initial 0%nat)))
     = (Throw (RangeError "length must be at least 1"),
        snd (configure (DropIdOptions.mk (Some 0) None None) (initial 0%nat))).
Proof.
  split; [reflexivity|]. split; [lia|]. split; [discriminate|].
  split; [reflexivity|].
  apply (configure_defers_validation nat cyclicAlphabet
           (DropIdOptions.mk (Some 0) None None) 0 (initial 0%nat)
           "user" None None).
  - reflexivity.
  - lia.
  - discriminate.
  - reflexivity.
Defined.

(** [dropid('user', undefined, { alphabet: alphabets.hex, length: lengths.long })] *)
Lemma presets_accepted_witness :
  In alphabets.hex alphabet_presets
  /\ In lengths.long length_presets
  /\ "user" <> ""
  /\ exists (suffix : string) (w' : World nat),
       dropid cyclicAlphabet (VString "user") None
              (Some (DropIdOptions.mk (Some lengths.long) (Some alphabets.hex)
                                      None))
              (initial 0%nat)
       = (Ok (pattern None (trim (toLowerCase "user")) "_" suffix), w')
       /\ suffix_ok alphabets.hex lengths.long suffix.
Proof.
  split; [simpl; tauto|]. split; [simpl; tauto|]. split; [discriminate|].
  apply (presets_accepted nat cyclicAlphabet cyclicAlphabet_contract
           alphabets.hex lengths.long "user" None (initial 0%nat)).
  - simpl; tauto.
  - simpl; tauto.
  - discriminate.
Defined.

(** [createPrefixedId('org', { length: 0 })] *)
Lemma createPrefixedId_defers_options_witness :
  "org" <> ""
  /\ DropIdOptions.length (DropIdOptions.mk (Some 0) None None) = Some 0
  /\ 0 < 1
  /\ exists f : value -> Eff nat string,
       createPrefixedId cyclicAlphabet (VString "org")
                        (Some (DropIdOptions.mk (Some 0) None None))
                        (initial 0%nat)
       = (Ok f, initial 0%nat)
       /\ forall (name : string) (w1 : World nat),
            name <> "" ->
            f (VString name) w1
            = (Throw (RangeError "length must be at least 1"), w1).
Proof.
  split; [discriminate|]. split; [reflexivity|]. split; [lia|].
  apply (createPrefixedId_defers_options nat cyclicAlphabet "org"
           (DropIdOptions.mk (Some 0) None None) 0 (initial 0%nat)).
  - discriminate.
  - reflexivity.
  - lia.
Defined.
